(** * A shallow embedding of [osc_router.py]

    The development models the configuration loader [load_config], the
    global rule map [VALUE_MAP] with the flag [FORWARD_UNMAPPED], the
    message handler [osc_handler] and the sender [send_osc].

    Python values are those the program meets: values decoded by [json.load]
    from the configuration file and argument values decoded by python-osc
    from a datagram.  Dictionary keys are compared the way CPython compares
    them inside a dict lookup or a tuple comparison
    ([PyObject_RichCompareBool]): identity first, then [==].  For the values
    below identity only matters for NaN floats, which are never [==] to
    anything; a NaN therefore carries its object identity. *)

From Stdlib Require Import String List Bool ZArith QArith Qabs.
Import ListNotations.
Open Scope string_scope.
Open Scope list_scope.
Set Warnings "-register-all".

(** ** Python values *)

(** A Python float: finite (its exact rational value), infinite (with its
    sign, [true] for negative) or a NaN object.  [json.load] returns the
    single module constant [json.decoder.NaN] for every [NaN] literal: it has
    identity [0]; a NaN decoded from a datagram is a fresh float object. *)
Inductive pyfloat : Type :=
| FFin (q : Q)
| FInf (neg : bool)
| FNaN (ident : nat).

Inductive pyval : Type :=
| PNone
| PBool (b : bool)
| PInt (z : Z)
| PFloat (f : pyfloat)
| PStr (s : string)
| PList (l : list pyval)
| PDict (d : list (string * pyval)).

(** The numeric view of [bool], [int] and finite [float]: Python compares
    these three kinds by their mathematical value ([True == 1 == 1.0]). *)
Definition num_of (v : pyval) : option Q :=
  match v with
  | PBool b => Some (inject_Z (if b then 1 else 0)%Z)
  | PInt z => Some (inject_Z z)
  | PFloat (FFin q) => Some q
  | _ => None
  end.

Definition is_numeric (v : pyval) : bool :=
  match v with
  | PBool _ | PInt _ | PFloat _ => true
  | _ => false
  end.

(** Python [==] on floats that are not both finite. *)
Definition float_eq (f g : pyfloat) : bool :=
  match f, g with
  | FFin p, FFin q => Qeq_bool p q
  | FInf s, FInf t => Bool.eqb s t
  | FNaN i, FNaN j => Nat.eqb i j   (* identity shortcut; NaN != NaN *)
  | _, _ => false
  end.

Definition dget_opt (k : string) (d : list (string * pyval)) : option pyval :=
  fold_left (fun acc kv => if String.eqb k (fst kv) then Some (snd kv) else acc)
    d None.

(** [PyObject_RichCompareBool(a, b, Py_EQ)] on the values above. *)
Fixpoint py_eq (a b : pyval) {struct a} : bool :=
  match a, b with
  | PNone, PNone => true
  | PFloat f, PFloat g => float_eq f g
  | PStr s, PStr t => String.eqb s t
  | PList l1, PList l2 =>
      (fix go (l1 l2 : list pyval) : bool :=
         match l1, l2 with
         | [], [] => true
         | x :: r1, y :: r2 => py_eq x y && go r1 r2
         | _, _ => false
         end) l1 l2
  | PDict d1, PDict d2 =>
      Nat.eqb (length d1) (length d2) &&
      (fix go (d : list (string * pyval)) : bool :=
         match d with
         | [] => true
         | (k, v) :: r =>
             match dget_opt k d2 with
             | Some w => py_eq v w && go r
             | None => false
             end
         end) d1
  | _, _ =>
      if is_numeric a && is_numeric b then
        match num_of a, num_of b with
        | Some p, Some q => Qeq_bool p q
        | _, _ => false
        end
      else false
  end.

(** [hash(v)] raises [TypeError] exactly on lists and dicts. *)
Definition py_hashable (v : pyval) : bool :=
  match v with
  | PList _ | PDict _ => false
  | _ => true
  end.

(** Python truth value, as used by [not x] and [bool(x)]. *)
Definition truthy (v : pyval) : bool :=
  match v with
  | PNone => false
  | PBool b => b
  | PInt z => negb (Z.eqb z 0)
  | PFloat (FFin q) => negb (Qeq_bool q 0)
  | PFloat _ => true
  | PStr s => negb (String.eqb s "")
  | PList l => negb (Nat.eqb (length l) 0)
  | PDict d => negb (Nat.eqb (length d) 0)
  end.

(** [d.get(k, default)] on a decoded JSON object: [json.load] builds the dict
    from the pairs in order, so a later duplicate key wins. *)
Definition dget (k : string) (d : list (string * pyval)) (default : pyval) : pyval :=
  match dget_opt k d with
  | Some v => v
  | None => default
  end.

(** Python exceptions the code can raise, its own and those of the
    python-osc client it calls. *)
Inductive py_exc : Type :=
| TypeError
| AttributeError
| ValueError
| OverflowError
| BuildError
| OSError.

(** ** The rule map [VALUE_MAP]

    A Python dict from [(in_addr, in_val)] to [(out_addr, out_args)], in
    insertion order. *)
Definition key := (pyval * pyval)%type.
Definition target := (pyval * pyval)%type.
Definition value_map := list (key * target).

Definition key_eq (k1 k2 : key) : bool :=
  py_eq (fst k1) (fst k2) && py_eq (snd k1) (snd k2).

Definition key_hashable (k : key) : bool :=
  py_hashable (fst k) && py_hashable (snd k).

(** [key in d] / [d[key]] for a hashable key. *)
Fixpoint vm_lookup (k : key) (m : value_map) : option target :=
  match m with
  | [] => None
  | (k', t) :: r => if key_eq k' k then Some t else vm_lookup k r
  end.

(** [d[key] = t] for a hashable key: an equal key keeps its place and its
    original key object and gets the new value; otherwise the pair is
    appended. *)
Fixpoint vm_set (k : key) (t : target) (m : value_map) : value_map :=
  match m with
  | [] => [(k, t)]
  | (k', t') :: r => if key_eq k' k then (k', t) :: r else (k', t') :: vm_set k t r
  end.

(** The stored entry that [key in d] finds, if any. *)
Fixpoint vm_find (k : key) (m : value_map) : option (key * target) :=
  match m with
  | [] => None
  | (k', t) :: r => if key_eq k' k then Some (k', t) else vm_find k r
  end.

(** The dict invariant: every stored key is hashable and no two stored keys
    are equal. *)
Fixpoint vm_wf (m : value_map) : bool :=
  match m with
  | [] => true
  | (k, _) :: r =>
      key_hashable k &&
      match vm_lookup k r with None => true | Some _ => false end &&
      vm_wf r
  end.

(** Results of Python code that may raise. *)
Inductive outcome (A : Type) : Type :=
| Ret (a : A)
| Raise (e : py_exc).
Arguments Ret {A} a.
Arguments Raise {A} e.

(** ** Building [VALUE_MAP] ([load_config], lines 115-129) *)

(** [for m in x]: a list yields its items, a dict its keys, a string its
    one-character strings; other values are not iterable. *)
Definition py_iter (x : pyval) : outcome (list pyval) :=
  match x with
  | PList l => Ret l
  | PDict d => Ret (map (fun kv => PStr (fst kv)) d)
  | PStr s => Ret (map (fun c => PStr (String c EmptyString)) (list_ascii_of_string s))
  | _ => Raise TypeError
  end.

(** The loop body over the remaining entries, with [mappings_dict] as
    accumulator.  [m.get] raises [AttributeError] when [m] is not a dict;
    the assignment [mappings_dict[(in_addr, in_val)] = ...] raises
    [TypeError] when the key is not hashable. *)
Fixpoint build_entries (items : list pyval) (mappings_dict : value_map)
  : outcome value_map :=
  match items with
  | [] => Ret mappings_dict
  | m :: rest =>
      match m with
      | PDict d =>
          let in_addr := dget "in_address" d PNone in
          let in_val := dget "in_value" d PNone in
          let out_addr := dget "out_address" d PNone in
          let out_args := dget "out_args" d (PList []) in
          if negb (truthy in_addr) || negb (truthy out_addr) then
            build_entries rest mappings_dict
          else if key_hashable (in_addr, in_val) then
            build_entries rest (vm_set (in_addr, in_val) (out_addr, out_args) mappings_dict)
          else Raise TypeError
      | _ => Raise AttributeError
      end
  end.

(** [mappings_dict] built from [data.get("mappings", [])]. *)
Definition build_value_map (mappings : pyval) : outcome value_map :=
  match py_iter mappings with
  | Ret items => build_entries items []
  | Raise e => Raise e
  end.

(** ** Global state and log *)

(** The two module globals the loader writes and the handler reads. *)
Record router := {
  VALUE_MAP : value_map;
  FORWARD_UNMAPPED : bool
}.

(** Module initialisation: [VALUE_MAP = {}], [FORWARD_UNMAPPED = True]. *)
Definition initial_router : router := {| VALUE_MAP := []; FORWARD_UNMAPPED := true |}.

(** The lines written by [log_gui]. *)
Inductive log_event : Type :=
| LogCreatedDefault
| LogWriteError
| LogLoadedFrom
| LogReadError
| LogLoadedMappings (n : nat) (fwd : bool)
| LogRecv (address : string) (args : list pyval)
| LogSend (address : pyval) (args : list pyval)
| LogNoClient
| LogIgnored (k : key).

(** ** [load_config] *)

(** What the file system offers: no file (and whether writing the default
    succeeds), a file that cannot be opened or decoded, or a file decoded by
    [json.load]. *)
Inductive config_source : Type :=
| ConfigMissing (write_ok : bool)
| ConfigUnreadable
| ConfigDecoded (data : pyval).

(** The default written when no file exists (lines 91-94). *)
Definition default_config : pyval :=
  PDict [("forward_unmapped", PBool true); ("mappings", PList [])].

(** [load_config()]: the new globals, the log lines and the exception that
    escapes, if any.  [FORWARD_UNMAPPED] is assigned before the loop, so a
    raise inside the loop leaves the new flag with the old map. *)
Definition load_config (st : router) (src : config_source)
  : router * list log_event * option py_exc :=
  let read :=
    match src with
    | ConfigMissing true => inl (default_config, [LogCreatedDefault])
    | ConfigMissing false => inr [LogWriteError]
    | ConfigUnreadable => inr [LogReadError]
    | ConfigDecoded data => inl (data, [LogLoadedFrom])
    end in
  match read with
  | inr logs => (st, logs, None)
  | inl (data, logs) =>
      match data with
      | PDict d =>
          let fwd := truthy (dget "forward_unmapped" d (PBool false)) in
          let st1 := {| VALUE_MAP := VALUE_MAP st; FORWARD_UNMAPPED := fwd |} in
          match build_value_map (dget "mappings" d (PList [])) with
          | Ret vm =>
              ({| VALUE_MAP := vm; FORWARD_UNMAPPED := fwd |},
               logs ++ [LogLoadedMappings (length vm) fwd], None)
          | Raise e => (st1, logs, Some e)
          end
      | _ => (st, logs, Some AttributeError)  (* data.get on a non-dict *)
      end
  end.

(** ** Sending and dispatch *)

(** [osc_client.send_message(address, args)] is a call into python-osc,
    whose code is not part of this repository.  Its behaviour is a
    parameter of [send_osc]: [None] when the datagram goes out, [Some e] when
    building the message or the socket's [sendto] raises [e]. *)
Definition client_send := pyval -> list pyval -> option py_exc.

(** [send_osc(address, out_args)]: the log lines, the datagram handed to
    the socket, and the exception escaping from [send_message] (nothing
    catches it).  Without a client it only warns. *)
Definition send_osc (send_message : client_send) (client : bool) (address out_args : pyval)
  : list log_event * option (pyval * list pyval) * option py_exc :=
  if negb client then ([LogNoClient], None, None)
  else
    let args := match out_args with
                | PNone => []
                | PList l => l
                | x => [x]
                end in
    match send_message address args with
    | None => ([LogSend address args], Some (address, args), None)
    | Some e => ([LogSend address args], None, Some e)
    end.

(** Some of the ways python-osc's [send_message] fails, for exhibiting them:
    [add_arg] raises [ValueError] on a dict argument (also inside a list);
    [build] raises [BuildError] on an empty or non-string address, and
    [struct.pack('>f', x)] raises [OverflowError] for a float whose magnitude
    is at least 2^128 (python-osc sends Python floats as float32); the
    socket's [sendto] may raise [OSError] ([sendto_ok = false]).  Failures it
    does not list (e.g. integers out of range) are not needed here. *)
Fixpoint osc_arg_value_error (v : pyval) : bool :=
  match v with
  | PDict _ => true
  | PList l => existsb osc_arg_value_error l
  | _ => false
  end.

Fixpoint osc_arg_overflow (v : pyval) : bool :=
  match v with
  | PFloat (FFin q) => Qle_bool (inject_Z (2 ^ 128)) (Qabs q)
  | PList l => existsb osc_arg_overflow l
  | _ => false
  end.

Definition pythonosc_send (sendto_ok : bool) : client_send :=
  fun address args =>
    if existsb osc_arg_value_error args then Some ValueError
    else match address with
         | PStr EmptyString => Some BuildError
         | PStr _ =>
             if existsb osc_arg_overflow args then Some OverflowError
             else if sendto_ok then None else Some OSError
         | _ => Some BuildError
         end.

(** The decision taken by [osc_handler] (lines 162-171): the call
    [send_osc(a, o)], the [Ignored] branch, or the [TypeError] raised by
    [key in VALUE_MAP] when the key is not hashable. *)
Inductive decision : Type :=
| Forward (address : pyval) (out_args : pyval)
| Drop (k : key)
| Fail (e : py_exc).

(** [args[0] if args else None] *)
Definition first_arg (args : list pyval) : pyval :=
  match args with [] => PNone | a :: _ => a end.

Definition route (st : router) (address : string) (args : list pyval) : decision :=
  let k := (PStr address, first_arg args) in
  if negb (key_hashable k) then Fail TypeError
  else match vm_lookup k (VALUE_MAP st) with
       | Some (out_address, out_args) => Forward out_address out_args
       | None =>
           if FORWARD_UNMAPPED st then Forward (PStr address) (PList args)
           else Drop k
       end.

(** [osc_handler(address, *args)] as a whole: the log lines, the datagram
    sent (if any) and the exception raised (if any).  The handler is only
    registered by [start_osc_server] after [osc_client] is set, and
    [stop_osc_server] never clears it, so [client] is [true] whenever the
    handler runs. *)
Definition osc_handler (send_message : client_send) (client : bool) (st : router)
  (address : string) (args : list pyval)
  : list log_event * option (pyval * list pyval) * option py_exc :=
  let logs := [LogRecv address args] in
  match route st address args with
  | Forward a o =>
      let '(l2, sent, exc) := send_osc send_message client a o in (logs ++ l2, sent, exc)
  | Drop k => (logs ++ [LogIgnored k], None, None)
  | Fail e => (logs, None, Some e)
  end.

(** ** The example scenario of the specification *)

Definition scenario_config (fwd : bool) : pyval :=
  PDict [("forward_unmapped", PBool fwd);
         ("mappings", PList [PDict [("in_address", PStr "/btn/1"); ("in_value", PInt 1);
                                    ("out_address", PStr "/light/1");
                                    ("out_args", PList [PInt 255])]])].

Definition scenario_router (fwd : bool) : router :=
  fst (fst (load_config initial_router (ConfigDecoded (scenario_config fwd)))).

(** ** Entries of the configuration *)

(** Whether an entry passes the [if not in_addr or not out_addr] guard. *)
Definition entry_kept (d : list (string * pyval)) : bool :=
  truthy (dget "in_address" d PNone) && truthy (dget "out_address" d PNone).

Definition entry_key (d : list (string * pyval)) : key :=
  (dget "in_address" d PNone, dget "in_value" d PNone).

Definition entry_target (d : list (string * pyval)) : target :=
  (dget "out_address" d PNone, dget "out_args" d (PList [])).

(** Every key stored in the dict passed [hash]. *)
Definition keys_hashable (m : value_map) : Prop :=
  Forall (fun e => key_hashable (fst e) = true) m.

(** A configuration holding one mapping entry. *)
Definition single_rule_config (fwd : bool) (A : string) (in_value : pyval)
  (out : string) (out_args : pyval) : pyval :=
  PDict [("forward_unmapped", PBool fwd);
         ("mappings", PList [PDict [("in_address", PStr A); ("in_value", in_value);
                                    ("out_address", PStr out); ("out_args", out_args)]])].

(** The globals after [load_config] read [cfg] at startup. *)
Definition loaded (cfg : pyval) : router :=
  fst (fst (load_config initial_router (ConfigDecoded cfg))).

(** Two entries with the same key, and an entry without [out_address]. *)
Definition dup_entry (out : string) : list (string * pyval) :=
  [("in_address", PStr "/a"); ("in_value", PInt 1); ("out_address", PStr out);
   ("out_args", PList [PInt 0])].

Definition no_out_entry : list (string * pyval) :=
  [("in_address", PStr "/a"); ("in_value", PInt 1)].

(** The addresses of a stored entry are both true values. *)
Definition entry_addresses_ok (e : key * target) : Prop :=
  truthy (fst (fst e)) = true /\ truthy (fst (snd e)) = true.

(** ** Server lifecycle and the window's controls

    The module globals [osc_client], [osc_server_obj], [server_thread] and
    the window's [running] flag, its status line and the state of its
    widgets.  A client or server object is represented by the endpoint it
    was created for. *)

(** [_toggle_inputs(enabled)] sets the entries and the Start button to
    [enabled] and the Stop button to the opposite. *)
Record session := {
  osc_client : option (string * Z);
  osc_server_obj : option (string * Z);
  server_thread : bool;
  running : bool;
  inputs_enabled : bool;       (* entries and Start button *)
  stop_button_enabled : bool;
  status_running : option (string * Z)  (* [None]: "Status: Stopped" *)
}.

(** Module initialisation and [OSCMapperApp.__init__]: no client, no server,
    [running = False], Stop button created disabled. *)
Definition initial_session : session :=
  {| osc_client := None; osc_server_obj := None; server_thread := false;
     running := false; inputs_enabled := true; stop_button_enabled := false;
     status_running := None |}.

(** What the lifecycle code writes: [log_gui] lines and message boxes. *)
Inductive app_event : Type :=
| EvServerStarting (ip : string) (port : Z)
| EvForwarding (ip : string) (port : Z)
| EvStopping
| EvStopped
| EvMapperStarted
| EvErrorPorts          (* "Ports must be integers." *)
| EvErrorStartFailed.   (* "Failed to start OSC server" *)

Definition set_client (s : session) (c : option (string * Z)) : session :=
  {| osc_client := c; osc_server_obj := osc_server_obj s; server_thread := server_thread s;
     running := running s; inputs_enabled := inputs_enabled s;
     stop_button_enabled := stop_button_enabled s; status_running := status_running s |}.

Definition set_server (s : session) (srv : option (string * Z)) (th : bool) : session :=
  {| osc_client := osc_client s; osc_server_obj := srv; server_thread := th;
     running := running s; inputs_enabled := inputs_enabled s;
     stop_button_enabled := stop_button_enabled s; status_running := status_running s |}.

(** [self.running = r], [self._toggle_inputs(enabled)] and the status line. *)
Definition set_window (s : session) (r enabled : bool) (st : option (string * Z)) : session :=
  {| osc_client := osc_client s; osc_server_obj := osc_server_obj s;
     server_thread := server_thread s; running := r; inputs_enabled := enabled;
     stop_button_enabled := negb enabled; status_running := st |}.

(** [start_osc_server(listen_ip, listen_port, target_ip, target_port)].
    [client_ok] and [bind_ok] say whether [SimpleUDPClient(...)] and
    [ThreadingOSCUDPServer(...)] return or raise; the result is the new
    state, the log lines and whether the call returned normally.  The client
    global is assigned before the server is created. *)
Definition start_osc_server (s : session) (listen_ip : string) (listen_port : Z)
  (target_ip : string) (target_port : Z) (client_ok bind_ok : bool)
  : session * list app_event * bool :=
  if negb client_ok then (s, [], false)
  else
    let s1 := set_client s (Some (target_ip, target_port)) in
    if negb bind_ok then (s1, [], false)
    else
      (set_server s1 (Some (listen_ip, listen_port)) true,
       [EvServerStarting listen_ip listen_port; EvForwarding target_ip target_port], true).

(** [stop_osc_server()]: the client is kept. *)
Definition stop_osc_server (s : session) : session * list app_event :=
  match osc_server_obj s with
  | Some _ => (set_server s None false, [EvStopping; EvStopped])
  | None => (set_server s None false, [EvStopped])
  end.

(** [OSCMapperApp.on_start].  [py_int] is [int(x.strip())] ([None] for
    [ValueError]), [py_strip] is [str.strip]; [lp], [tip], [tp] are the texts
    of the three entries. *)
Definition on_start (py_int : string -> option Z) (py_strip : string -> string)
  (host_ip : string) (s : session) (lp tip tp : string) (client_ok bind_ok : bool)
  : session * list app_event :=
  if running s then (s, [])
  else
    match py_int lp, py_int tp with
    | Some listen_port, Some target_port =>
        let '(s1, logs, ok) :=
          start_osc_server s host_ip listen_port (py_strip tip) target_port client_ok bind_ok in
        if ok then
          (set_window s1 true false (Some (host_ip, listen_port)), logs ++ [EvMapperStarted])
        else (s1, logs ++ [EvErrorStartFailed])
    | _, _ => (s, [EvErrorPorts])
    end.

(** [OSCMapperApp.on_stop]. *)
Definition on_stop (s : session) : session * list app_event :=
  if negb (running s) then (s, [])
  else
    let '(s1, logs) := stop_osc_server s in
    (set_window s1 false true None, logs).

(** [OSCMapperApp.on_close] before [self.destroy()]. *)
Definition on_close (s : session) : session * list app_event :=
  if running s then stop_osc_server s else (s, []).

(** A button press in the window, with the outcome of the socket calls. *)
Inductive app_op : Type :=
| PressStart (lp tip tp : string) (client_ok bind_ok : bool)
| PressStop.

Definition app_step (py_int : string -> option Z) (py_strip : string -> string)
  (host_ip : string) (s : session) (op : app_op) : session :=
  match op with
  | PressStart lp tip tp c b => fst (on_start py_int py_strip host_ip s lp tip tp c b)
  | PressStop => fst (on_stop s)
  end.

Definition run_ops (py_int : string -> option Z) (py_strip : string -> string)
  (host_ip : string) (s : session) (ops : list app_op) : session :=
  fold_left (app_step py_int py_strip host_ip) ops s.

(** The consistency the window keeps between its flag, its widgets and the
    server globals. *)
Definition session_ok (s : session) : Prop :=
  (running s = true <-> osc_server_obj s <> None) /\
  (server_thread s = true <-> osc_server_obj s <> None) /\
  (osc_server_obj s <> None -> osc_client s <> None) /\
  inputs_enabled s = negb (running s) /\
  stop_button_enabled s = running s.

(** Entry texts parsed as in the examples below. *)
Definition example_int (x : string) : option Z :=
  if String.eqb x "7000" then Some 7000%Z
  else if String.eqb x "9000" then Some 9000%Z else None.

(** A mapping entry as a decoded object. *)
Definition mapping_entry (A : string) (in_value : pyval) (out : pyval) (out_args : pyval)
  : pyval :=
  PDict [("in_address", PStr A); ("in_value", in_value); ("out_address", out);
         ("out_args", out_args)].

(** ** Key comparison on hashable values

    Keys only reach [==] after [hash] succeeded, i.e. on values that are
    neither lists nor dicts.  There [py_eq] is an equivalence. *)

Ltac bool_to_prop :=
  repeat match goal with
  | H : Qeq_bool _ _ = true |- _ => apply Qeq_bool_iff in H
  | H : Bool.eqb _ _ = true |- _ => apply Bool.eqb_prop in H; subst
  | H : Nat.eqb _ _ = true |- _ => apply Nat.eqb_eq in H; subst
  | H : String.eqb _ _ = true |- _ => apply String.eqb_eq in H; subst
  | |- Qeq_bool _ _ = true => apply Qeq_bool_iff
  | |- Bool.eqb ?b ?b = true => apply Bool.eqb_reflx
  | |- Nat.eqb ?n ?n = true => apply Nat.eqb_refl
  | |- String.eqb ?s ?s = true => apply String.eqb_refl
  end.

Ltac destruct_bools :=
  repeat match goal with b : bool |- _ => destruct b end.

Ltac destruct_pyval v :=
  destruct v as [| ? | ? | [? | ? | ?] | ? | ? | ?].

Lemma py_eq_hashable a b :
  py_hashable a = true -> py_eq a b = true -> py_hashable b = true.
Proof.
  intros Ha Hab; destruct_pyval a; destruct_pyval b; simpl in *; try discriminate; reflexivity.
Qed.

Lemma py_eq_refl a : py_hashable a = true -> py_eq a a = true.
Proof.
  intros Ha; destruct_pyval a; simpl in *; try discriminate; bool_to_prop;
    try reflexivity; destruct b; reflexivity.
Qed.

Lemma py_eq_sym a b : py_hashable a = true -> py_eq a b = py_eq b a.
Proof.
  intros Ha; destruct_pyval a; destruct_pyval b; simpl in *; try discriminate;
    try reflexivity; try apply Qeq_bool_comm; try apply String.eqb_sym;
    try apply Nat.eqb_sym;
    try (destruct_bools; reflexivity).
Qed.

Lemma py_eq_trans a b c :
  py_hashable a = true -> py_eq a b = true -> py_eq b c = true -> py_eq a c = true.
Proof.
  intros Ha Hab Hbc; destruct_pyval a; destruct_pyval b; try discriminate;
    destruct_pyval c; simpl in *; try discriminate; bool_to_prop; try reflexivity;
    eapply Qeq_trans; eassumption.
Qed.

Lemma key_eq_refl k : key_hashable k = true -> key_eq k k = true.
Proof.
  destruct k as [a v]; unfold key_hashable, key_eq; simpl; intros H.
  apply andb_prop in H as [Ha Hv]; rewrite (py_eq_refl a Ha), (py_eq_refl v Hv); reflexivity.
Qed.

Lemma key_eq_sym k1 k2 : key_hashable k1 = true -> key_eq k1 k2 = key_eq k2 k1.
Proof.
  destruct k1 as [a v], k2 as [b w]; unfold key_hashable, key_eq; simpl; intros H.
  apply andb_prop in H as [Ha Hv]; rewrite (py_eq_sym a b Ha), (py_eq_sym v w Hv); reflexivity.
Qed.

Lemma key_eq_trans k1 k2 k3 :
  key_hashable k1 = true -> key_eq k1 k2 = true -> key_eq k2 k3 = true -> key_eq k1 k3 = true.
Proof.
  destruct k1 as [a v], k2 as [b w], k3 as [c x]; unfold key_hashable, key_eq; simpl.
  intros H H12 H23; apply andb_prop in H as [Ha Hv];
    apply andb_prop in H12 as [Hab Hvw]; apply andb_prop in H23 as [Hbc Hwx].
  rewrite (py_eq_trans a b c Ha Hab Hbc), (py_eq_trans v w x Hv Hvw Hwx); reflexivity.
Qed.

Lemma key_eq_hashable k1 k2 :
  key_hashable k1 = true -> key_eq k1 k2 = true -> key_hashable k2 = true.
Proof.
  destruct k1 as [a v], k2 as [b w]; unfold key_hashable, key_eq; simpl.
  intros H H12; apply andb_prop in H as [Ha Hv]; apply andb_prop in H12 as [Hab Hvw].
  rewrite (py_eq_hashable a b Ha Hab), (py_eq_hashable v w Hv Hvw); reflexivity.
Qed.

Lemma vm_set_keys_hashable k t m :
  key_hashable k = true -> keys_hashable m -> keys_hashable (vm_set k t m).
Proof.
  intros Hk Hm; induction Hm as [| [k' t'] r Hk' Hr IH]; simpl.
  - constructor; [exact Hk | constructor].
  - destruct (key_eq k' k); constructor; auto.
Qed.

Lemma vm_lookup_set k t q m :
  key_hashable k = true -> key_hashable q = true -> keys_hashable m ->
  vm_lookup q (vm_set k t m) = if key_eq k q then Some t else vm_lookup q m.
Proof.
  intros Hk Hq Hm; induction Hm as [| [k' t'] r Hk' Hr IH]; simpl.
  - destruct (key_eq k q); reflexivity.
  - simpl in Hk'. destruct (key_eq k' k) eqn:E1; simpl.
    + destruct (key_eq k q) eqn:E2.
      * rewrite (key_eq_trans k' k q Hk' E1 E2); reflexivity.
      * destruct (key_eq k' q) eqn:E3; [|reflexivity].
        rewrite (key_eq_sym k' k Hk') in E1.
        rewrite (key_eq_trans k k' q Hk E1 E3) in E2; discriminate.
    + rewrite IH. destruct (key_eq k' q) eqn:E3; [|reflexivity].
      destruct (key_eq k q) eqn:E2; [|reflexivity].
      rewrite (key_eq_sym k q Hk) in E2.
      rewrite (key_eq_trans k' q k Hk' E3 E2) in E1; discriminate.
Qed.

Lemma vm_lookup_find k m : vm_lookup k m = option_map snd (vm_find k m).
Proof.
  induction m as [| [k' t] r IH]; simpl; [reflexivity|].
  destruct (key_eq k' k); [reflexivity | exact IH].
Qed.

Lemma vm_find_key_eq k m k1 t1 : vm_find k m = Some (k1, t1) -> key_eq k1 k = true.
Proof.
  induction m as [| [k' t] r IH]; simpl; [discriminate|].
  destruct (key_eq k' k) eqn:E; [intros H; injection H as <- <-; exact E | exact IH].
Qed.

Lemma vm_wf_keys_hashable m : vm_wf m = true -> keys_hashable m.
Proof.
  induction m as [| [k t] r IH]; simpl; intros H; constructor.
  - apply andb_prop in H as [H _]; apply andb_prop in H as [H _]; exact H.
  - apply IH; apply andb_prop in H as [_ H]; exact H.
Qed.

Lemma vm_lookup_in_some k0 t q r :
  key_hashable k0 = true -> In (k0, t) r -> key_eq k0 q = true -> vm_lookup q r <> None.
Proof.
  intros Hk0 Hin Hq; induction r as [| [k' t'] r IH]; simpl in *; [contradiction|].
  destruct (key_eq k' q) eqn:E; [discriminate|].
  destruct Hin as [Heq | Hin]; [injection Heq as -> ->; congruence | exact (IH Hin)].
Qed.

Lemma vm_find_in m k0 t q :
  vm_wf m = true -> In (k0, t) m -> key_eq k0 q = true -> vm_find q m = Some (k0, t).
Proof.
  intros Hwf Hin Hq; induction m as [| [k' t'] r IH]; simpl in *; [contradiction|].
  apply andb_prop in Hwf as [Hwf Hr]; apply andb_prop in Hwf as [Hk' Hnone].
  destruct Hin as [Heq | Hin].
  - injection Heq as -> ->; rewrite Hq; reflexivity.
  - destruct (key_eq k' q) eqn:E.
    + exfalso.
      assert (Hk0 : key_hashable k0 = true)
        by (pose proof (vm_wf_keys_hashable r Hr) as Hs;
            unfold keys_hashable in Hs; rewrite Forall_forall in Hs; exact (Hs _ Hin)).
      assert (E' : key_eq k0 k' = true).
      { rewrite (key_eq_sym k' q Hk') in E.
        exact (key_eq_trans k0 q k' Hk0 Hq E). }
      apply (vm_lookup_in_some k0 t k' r Hk0 Hin E').
      destruct (vm_lookup k' r); [discriminate | reflexivity].
    + exact (IH Hr Hin).
Qed.

Lemma vm_wf_set k t m :
  vm_wf m = true -> key_hashable k = true -> vm_wf (vm_set k t m) = true.
Proof.
  intros Hwf Hk; induction m as [| [k' t'] r IH]; simpl in *.
  - rewrite Hk; reflexivity.
  - apply andb_prop in Hwf as [Hwf Hr]; apply andb_prop in Hwf as [Hk' Hnone].
    destruct (key_eq k' k) eqn:E; simpl.
    + rewrite Hk', Hnone, Hr; reflexivity.
    + rewrite Hk', (IH Hr); simpl.
      rewrite (vm_lookup_set k t k' r Hk Hk' (vm_wf_keys_hashable r Hr)).
      rewrite (key_eq_sym k k' Hk), E, andb_true_r; exact Hnone.
Qed.

Lemma build_entries_cons d rest acc :
  build_entries (PDict d :: rest) acc =
  if negb (entry_kept d) then build_entries rest acc
  else if key_hashable (entry_key d) then
    build_entries rest (vm_set (entry_key d) (entry_target d) acc)
  else Raise TypeError.
Proof.
  unfold entry_kept, entry_key, entry_target; simpl.
  rewrite negb_andb; reflexivity.
Qed.

Lemma build_entries_app l1 l2 acc :
  build_entries (l1 ++ l2) acc =
  match build_entries l1 acc with
  | Ret a => build_entries l2 a
  | Raise e => Raise e
  end.
Proof.
  revert acc; induction l1 as [| m l1 IH]; intros acc; simpl; [reflexivity|].
  destruct m; try reflexivity.
  destruct (negb (truthy (dget "in_address" d PNone)) || negb (truthy (dget "out_address" d PNone)));
    [apply IH|].
  destruct (key_hashable (dget "in_address" d PNone, dget "in_value" d PNone)); [apply IH | reflexivity].
Qed.

Lemma build_entries_wf items acc vm :
  vm_wf acc = true -> build_entries items acc = Ret vm -> vm_wf vm = true.
Proof.
  revert acc; induction items as [| m rest IH]; intros acc Hacc H; simpl in H.
  - injection H as <-; exact Hacc.
  - destruct m; try discriminate.
    destruct (negb (truthy (dget "in_address" d PNone)) || negb (truthy (dget "out_address" d PNone)));
      [exact (IH acc Hacc H)|].
    destruct (key_hashable (dget "in_address" d PNone, dget "in_value" d PNone)) eqn:Hk;
      [|discriminate].
    exact (IH _ (vm_wf_set _ _ _ Hacc Hk) H).
Qed.

Lemma build_value_map_wf x vm : build_value_map x = Ret vm -> vm_wf vm = true.
Proof.
  unfold build_value_map; destruct (py_iter x); [|discriminate].
  apply build_entries_wf; reflexivity.
Qed.

(** The dict invariant holds of every [VALUE_MAP] the loader leaves. *)
Lemma load_config_wf st src :
  vm_wf (VALUE_MAP st) = true -> vm_wf (VALUE_MAP (fst (fst (load_config st src)))) = true.
Proof.
  intros H; unfold load_config.
  destruct src as [[|] | | data]; simpl; try exact H.
  - reflexivity.
  - destruct data; simpl; try exact H.
    destruct (build_value_map (dget "mappings" d (PList []))) eqn:E; simpl; [|exact H].
    exact (build_value_map_wf _ _ E).
Qed.

(** ** Dispatch on a mapped key *)

Lemma route_hit_entry st A V t args :
  vm_wf (VALUE_MAP st) = true ->
  In ((PStr A, V), t) (VALUE_MAP st) ->
  py_eq V (first_arg args) = true ->
  route st A args = Forward (fst t) (snd t).
Proof.
  intros Hwf Hin Heq; set (v := first_arg args) in *.
  assert (HkV : key_hashable (PStr A, V) = true).
  { pose proof (vm_wf_keys_hashable _ Hwf) as Hs; unfold keys_hashable in Hs.
    rewrite Forall_forall in Hs; exact (Hs _ Hin). }
  assert (Hkeq : key_eq (PStr A, V) (PStr A, v) = true).
  { unfold key_eq; simpl; rewrite String.eqb_refl, Heq; reflexivity. }
  unfold route; fold v.
  rewrite (key_eq_hashable _ _ HkV Hkeq); simpl negb; cbv iota.
  rewrite vm_lookup_find, (vm_find_in _ _ _ _ Hwf Hin Hkeq).
  destruct t; reflexivity.
Qed.

Lemma py_eq_int_one v :
  py_eq (PInt 1) v = true <->
  v = PBool true \/ v = PInt 1 \/ exists q, v = PFloat (FFin q) /\ (q == 1)%Q.
Proof.
  destruct_pyval v; cbn -[Qeq_bool inject_Z]; split; intros H; try discriminate;
    try (destruct H as [H | [H | [q' [H _]]]]; discriminate).
  - destruct b; [left; reflexivity | discriminate].
  - destruct H as [H | [H | [q' [H _]]]]; try discriminate; injection H as ->; reflexivity.
  - apply Qeq_bool_iff in H.
    assert (Hz : (1 = z)%Z) by (apply (proj1 (inject_Z_injective 1 z)); exact H).
    subst; right; left; reflexivity.
  - destruct H as [H | [H | [q' [H _]]]]; try discriminate; injection H as ->; reflexivity.
  - right; right; exists q; split; [reflexivity|].
    apply Qeq_bool_iff in H; symmetry; exact H.
  - destruct H as [H | [H | [q' [H Hq]]]]; try discriminate; injection H as ->.
    apply Qeq_bool_iff; symmetry; exact Hq.
Qed.

Lemma py_eq_none v : py_eq PNone v = true <-> v = PNone.
Proof.
  destruct_pyval v; simpl; split; intros H; try discriminate; reflexivity.
Qed.

(** A stored entry is the one [key in VALUE_MAP] finds exactly when it is
    equal to the probed key. *)
Lemma vm_find_entry_iff m k0 t q :
  vm_wf m = true -> In (k0, t) m ->
  vm_find q m = Some (k0, t) <-> key_eq k0 q = true.
Proof.
  intros Hwf Hin; split.
  - apply vm_find_key_eq.
  - apply (vm_find_in _ _ _ _ Hwf Hin).
Qed.

(** Claim C1 (as amended).  For a rule table (a dict, [vm_wf]) holding the
    entry [(A, V) -> (out_address, out_args)], a message at [A] whose first
    argument equals [V] as a dict key compares is routed to
    [Forward out_address out_args], whatever its further arguments and
    whatever [FORWARD_UNMAPPED] is: the inbound arguments do not occur in the
    decision. *)
Theorem route_exact_match st A V out_address out_args v rest :
  vm_wf (VALUE_MAP st) = true ->
  In ((PStr A, V), (out_address, out_args)) (VALUE_MAP st) ->
  py_eq V v = true ->
  route st A (v :: rest) = Forward out_address out_args.
Proof.
  intros Hwf Hin Heq.
  exact (route_hit_entry st A V (out_address, out_args) (v :: rest) Hwf Hin Heq).
Qed.

Lemma route_exact_match_witness :
  vm_wf (VALUE_MAP (scenario_router false)) = true /\
  In ((PStr "/btn/1", PInt 1), (PStr "/light/1", PList [PInt 255]))
     (VALUE_MAP (scenario_router false)) /\
  py_eq (PInt 1) (PInt 1) = true /\
  route (scenario_router false) "/btn/1" [PInt 1; PStr "x"; PInt 9]
  = Forward (PStr "/light/1") (PList [PInt 255]).
Proof.
  assert (Hwf : vm_wf (VALUE_MAP (scenario_router false)) = true) by reflexivity.
  assert (Hin : In ((PStr "/btn/1", PInt 1), (PStr "/light/1", PList [PInt 255]))
                  (VALUE_MAP (scenario_router false))) by (vm_compute; left; reflexivity).
  assert (Heq : py_eq (PInt 1) (PInt 1) = true) by reflexivity.
  split; [exact Hwf|]; split; [exact Hin|]; split; [exact Heq|].
  exact (route_exact_match _ _ _ _ _ _ _ Hwf Hin Heq).
Defined.

(** Claim C1 fails for a NaN match value: the configuration's [NaN] is the
    decoder's constant, the NaN received in a message is a new float object,
    and the two keys differ, so the message is not a mapped hit (here it is
    dropped). *)
Lemma route_exact_match_nan_counterexample :
  In ((PStr "/a", PFloat (FNaN 0)), (PStr "/b", PList []))
     (VALUE_MAP (loaded (single_rule_config false "/a" (PFloat (FNaN 0)) "/b" (PList [])))) /\
  route (loaded (single_rule_config false "/a" (PFloat (FNaN 0)) "/b" (PList [])))
        "/a" [PFloat (FNaN 1)]
  = Drop (PStr "/a", PFloat (FNaN 1)).
Proof. split; [vm_compute; left; reflexivity | reflexivity]. Qed.

(** Claim C4 (as amended).  Rule keys are compared with Python [==]: the
    entry keyed [(A, 1)] is the one found for a first argument [v] exactly
    when [v] is [True], the integer [1] or a float equal to [1.0], and each of
    these is routed through that entry. *)
Theorem route_int_one_python_equality st A t v rest :
  vm_wf (VALUE_MAP st) = true ->
  In ((PStr A, PInt 1), t) (VALUE_MAP st) ->
  (vm_find (PStr A, v) (VALUE_MAP st) = Some ((PStr A, PInt 1), t) <->
   v = PBool true \/ v = PInt 1 \/ exists q, v = PFloat (FFin q) /\ (q == 1)%Q) /\
  ((v = PBool true \/ v = PInt 1 \/ exists q, v = PFloat (FFin q) /\ (q == 1)%Q) ->
   route st A (v :: rest) = Forward (fst t) (snd t)).
Proof.
  intros Hwf Hin.
  assert (Hk : key_eq (PStr A, PInt 1) (PStr A, v) = py_eq (PInt 1) v)
    by (unfold key_eq; simpl; rewrite String.eqb_refl; reflexivity).
  split.
  - rewrite (vm_find_entry_iff _ _ _ _ Hwf Hin), Hk; apply py_eq_int_one.
  - intros Hv; apply (route_hit_entry st A (PInt 1) t (v :: rest) Hwf Hin).
    apply py_eq_int_one; exact Hv.
Qed.

Lemma route_int_one_python_equality_witness :
  vm_wf (VALUE_MAP (scenario_router false)) = true /\
  In ((PStr "/btn/1", PInt 1), (PStr "/light/1", PList [PInt 255]))
     (VALUE_MAP (scenario_router false)) /\
  route (scenario_router false) "/btn/1" [PBool true]
  = Forward (PStr "/light/1") (PList [PInt 255]).
Proof.
  assert (Hwf : vm_wf (VALUE_MAP (scenario_router false)) = true) by reflexivity.
  assert (Hin : In ((PStr "/btn/1", PInt 1), (PStr "/light/1", PList [PInt 255]))
                  (VALUE_MAP (scenario_router false))) by (vm_compute; left; reflexivity).
  split; [exact Hwf|]; split; [exact Hin|].
  apply (proj2 (route_int_one_python_equality _ "/btn/1" _ (PBool true) [] Hwf Hin)).
  left; reflexivity.
Defined.

(** Claim C4 fails: the rule with match value the integer [1] is hit by the
    float [1.0] and by [True]. *)
Lemma route_int_one_counterexample :
  route (scenario_router true) "/btn/1" [PFloat (FFin 1%Q)]
  = Forward (PStr "/light/1") (PList [PInt 255]) /\
  route (scenario_router true) "/btn/1" [PBool true]
  = Forward (PStr "/light/1") (PList [PInt 255]).
Proof. split; reflexivity. Qed.

(** Claim C9 (as amended).  An entry keyed [(A, None)] is hit by a message
    at [A] with no argument and by one whose first argument is [None] (an
    OSC nil); a first argument other than [None] never finds that entry. *)
Theorem route_absent_value st A t :
  vm_wf (VALUE_MAP st) = true ->
  In ((PStr A, PNone), t) (VALUE_MAP st) ->
  route st A [] = Forward (fst t) (snd t) /\
  (forall rest, route st A (PNone :: rest) = Forward (fst t) (snd t)) /\
  (forall v, v <> PNone -> vm_find (PStr A, v) (VALUE_MAP st) <> Some ((PStr A, PNone), t)).
Proof.
  intros Hwf Hin; split; [|split].
  - exact (route_hit_entry st A PNone t [] Hwf Hin eq_refl).
  - intros rest; exact (route_hit_entry st A PNone t (PNone :: rest) Hwf Hin eq_refl).
  - intros v Hv Hfind.
    apply vm_find_key_eq in Hfind; unfold key_eq in Hfind; simpl in Hfind.
    apply andb_prop in Hfind as [_ Hfind]; apply py_eq_none in Hfind; contradiction.
Qed.

Lemma route_absent_value_witness :
  vm_wf (VALUE_MAP (loaded (single_rule_config false "/a" PNone "/b" (PList [PInt 1])))) = true /\
  In ((PStr "/a", PNone), (PStr "/b", PList [PInt 1]))
     (VALUE_MAP (loaded (single_rule_config false "/a" PNone "/b" (PList [PInt 1])))) /\
  route (loaded (single_rule_config false "/a" PNone "/b" (PList [PInt 1]))) "/a" []
  = Forward (PStr "/b") (PList [PInt 1]).
Proof.
  assert (Hwf : vm_wf (VALUE_MAP (loaded (single_rule_config false "/a" PNone "/b" (PList [PInt 1])))) = true)
    by reflexivity.
  assert (Hin : In ((PStr "/a", PNone), (PStr "/b", PList [PInt 1]))
     (VALUE_MAP (loaded (single_rule_config false "/a" PNone "/b" (PList [PInt 1])))))
    by (vm_compute; left; reflexivity).
  split; [exact Hwf|]; split; [exact Hin|].
  exact (proj1 (route_absent_value _ "/a" _ Hwf Hin)).
Defined.

(** Claim C9 fails: a message at [A] carrying one argument, an OSC nil
    (decoded as [None]), is a mapped hit of the [(A, None)] rule. *)
Lemma route_absent_value_counterexample :
  route (loaded (single_rule_config false "/a" PNone "/b" (PList [PInt 1]))) "/a" [PNone]
  = Forward (PStr "/b") (PList [PInt 1]).
Proof. reflexivity. Qed.

(** ** Unmapped messages *)

Lemma route_miss st A args :
  py_hashable (first_arg args) = true ->
  vm_lookup (PStr A, first_arg args) (VALUE_MAP st) = None ->
  route st A args =
  if FORWARD_UNMAPPED st then Forward (PStr A) (PList args) else Drop (PStr A, first_arg args).
Proof.
  intros Hh Hnone; unfold route, key_hashable; simpl fst; simpl snd.
  rewrite Hh; simpl negb; cbv iota; rewrite Hnone; reflexivity.
Qed.

(** Claim C2 (as amended).  With [FORWARD_UNMAPPED] set, a message whose key
    has no entry and whose first argument (if any) is not an OSC array is
    handed to the client unchanged: [send_message] gets the same address and
    the same arguments in the same order.  That message goes out when
    [send_message] returns; when it raises, its exception escapes the
    handler after the send line and nothing is sent. *)
Theorem handler_passthrough send_message st A args :
  FORWARD_UNMAPPED st = true ->
  py_hashable (first_arg args) = true ->
  vm_lookup (PStr A, first_arg args) (VALUE_MAP st) = None ->
  route st A args = Forward (PStr A) (PList args) /\
  osc_handler send_message true st A args
  = ([LogRecv A args; LogSend (PStr A) args],
     match send_message (PStr A) args with
     | None => Some (PStr A, args)
     | Some _ => None
     end,
     send_message (PStr A) args).
Proof.
  intros Hf Hh Hnone.
  assert (Hr : route st A args = Forward (PStr A) (PList args))
    by (rewrite (route_miss st A args Hh Hnone), Hf; reflexivity).
  split; [exact Hr|]; unfold osc_handler; rewrite Hr; unfold send_osc; simpl.
  destruct (send_message (PStr A) args); reflexivity.
Qed.

Lemma handler_passthrough_witness :
  FORWARD_UNMAPPED (scenario_router true) = true /\
  py_hashable (first_arg [PInt 0; PStr "x"]) = true /\
  vm_lookup (PStr "/btn/1", first_arg [PInt 0; PStr "x"]) (VALUE_MAP (scenario_router true)) = None /\
  osc_handler (pythonosc_send true) true (scenario_router true) "/btn/1" [PInt 0; PStr "x"]
  = ([LogRecv "/btn/1" [PInt 0; PStr "x"]; LogSend (PStr "/btn/1") [PInt 0; PStr "x"]],
     Some (PStr "/btn/1", [PInt 0; PStr "x"]), None).
Proof.
  assert (Hf : FORWARD_UNMAPPED (scenario_router true) = true) by reflexivity.
  assert (Hh : py_hashable (first_arg [PInt 0; PStr "x"]) = true) by reflexivity.
  assert (Hn : vm_lookup (PStr "/btn/1", first_arg [PInt 0; PStr "x"])
                 (VALUE_MAP (scenario_router true)) = None) by reflexivity.
  split; [exact Hf|]; split; [exact Hh|]; split; [exact Hn|].
  exact (proj2 (handler_passthrough (pythonosc_send true) _ _ _ Hf Hh Hn)).
Defined.

(** Claim C2 fails.  A message whose first argument is an OSC array (a
    Python list) makes [key in VALUE_MAP] raise [TypeError]; nothing is
    forwarded although no entry has that key.  And a float argument beyond
    the float32 range (an OSC double such as 1e300, decoded as a Python
    float) makes python-osc's [send_message] raise [OverflowError] when it
    re-encodes it: the handler logs the send but nothing is sent. *)
Lemma handler_passthrough_counterexample :
  FORWARD_UNMAPPED initial_router = true /\
  VALUE_MAP initial_router = [] /\
  osc_handler (pythonosc_send true) true initial_router "/a" [PList [PInt 1]]
  = ([LogRecv "/a" [PList [PInt 1]]], None, Some TypeError) /\
  osc_handler (pythonosc_send true) true initial_router "/a" [PFloat (FFin (inject_Z (10 ^ 300)))]
  = ([LogRecv "/a" [PFloat (FFin (inject_Z (10 ^ 300)))];
      LogSend (PStr "/a") [PFloat (FFin (inject_Z (10 ^ 300)))]], None, Some OverflowError).
Proof. split; [reflexivity|]; split; [reflexivity|]; split; vm_compute; reflexivity. Qed.

(** Claim C3 (as amended).  With [FORWARD_UNMAPPED] clear, a message whose
    key has no entry and whose first argument (if any) is not an OSC array is
    dropped: nothing is sent and only the receive and [Ignored] lines are
    logged. *)
Theorem handler_drop send_message st A args :
  FORWARD_UNMAPPED st = false ->
  py_hashable (first_arg args) = true ->
  vm_lookup (PStr A, first_arg args) (VALUE_MAP st) = None ->
  route st A args = Drop (PStr A, first_arg args) /\
  osc_handler send_message true st A args
  = ([LogRecv A args; LogIgnored (PStr A, first_arg args)], None, None).
Proof.
  intros Hf Hh Hnone.
  assert (Hr : route st A args = Drop (PStr A, first_arg args))
    by (rewrite (route_miss st A args Hh Hnone), Hf; reflexivity).
  split; [exact Hr|]; unfold osc_handler; rewrite Hr; reflexivity.
Qed.

Lemma handler_drop_witness :
  FORWARD_UNMAPPED (scenario_router false) = false /\
  py_hashable (first_arg [PInt 1]) = true /\
  vm_lookup (PStr "/btn/2", first_arg [PInt 1]) (VALUE_MAP (scenario_router false)) = None /\
  osc_handler (pythonosc_send true) true (scenario_router false) "/btn/2" [PInt 1]
  = ([LogRecv "/btn/2" [PInt 1]; LogIgnored (PStr "/btn/2", PInt 1)], None, None).
Proof.
  assert (Hf : FORWARD_UNMAPPED (scenario_router false) = false) by reflexivity.
  assert (Hh : py_hashable (first_arg [PInt 1]) = true) by reflexivity.
  assert (Hn : vm_lookup (PStr "/btn/2", first_arg [PInt 1])
                 (VALUE_MAP (scenario_router false)) = None) by reflexivity.
  split; [exact Hf|]; split; [exact Hh|]; split; [exact Hn|].
  exact (proj2 (handler_drop (pythonosc_send true) _ _ _ Hf Hh Hn)).
Defined.

(** Claim C3 fails: with the flag clear and an OSC array as first argument
    the handler raises [TypeError] instead of taking the [Ignored] branch. *)
Lemma handler_drop_counterexample :
  route {| VALUE_MAP := []; FORWARD_UNMAPPED := false |} "/a" [PList [PInt 1]]
  = Fail TypeError.
Proof. reflexivity. Qed.

(** ** Loading the configuration *)

(** Claim C5 (as amended).  When the file cannot be read or decoded,
    [load_config] logs the error and returns without raising, leaving both
    globals as they were; at startup these are the module values, an empty
    map and [FORWARD_UNMAPPED = True]. *)
Theorem load_config_unreadable st :
  load_config st ConfigUnreadable = (st, [LogReadError], None) /\
  load_config initial_router ConfigUnreadable
  = ({| VALUE_MAP := []; FORWARD_UNMAPPED := true |}, [LogReadError], None).
Proof. split; reflexivity. Qed.

(** Claim C5 fails: after an unreadable configuration at startup the flag is
    [true], not [false]. *)
Lemma load_config_unreadable_counterexample :
  FORWARD_UNMAPPED (fst (fst (load_config initial_router ConfigUnreadable))) = true.
Proof. reflexivity. Qed.

(** Claim C10.  A decoded configuration object without a
    ["forward_unmapped"] key sets [FORWARD_UNMAPPED] to [false] (whether or
    not building the map then succeeds), while the default file written when
    none exists sets it to [true]. *)
Theorem load_config_flag_default st d :
  dget_opt "forward_unmapped" d = None ->
  FORWARD_UNMAPPED (fst (fst (load_config st (ConfigDecoded (PDict d))))) = false /\
  FORWARD_UNMAPPED (fst (fst (load_config st (ConfigMissing true)))) = true.
Proof.
  intros Hnone; split; [|reflexivity].
  unfold load_config; cbn -[dget build_value_map].
  destruct (build_value_map (dget "mappings" d (PList []))); simpl;
    unfold dget; rewrite Hnone; reflexivity.
Qed.

Lemma load_config_flag_default_witness :
  dget_opt "forward_unmapped" [("mappings", PList [])] = None /\
  FORWARD_UNMAPPED (fst (fst (load_config initial_router
                                (ConfigDecoded (PDict [("mappings", PList [])]))))) = false.
Proof.
  assert (H : dget_opt "forward_unmapped" [("mappings", PList [])] = None) by reflexivity.
  split; [exact H|].
  exact (proj1 (load_config_flag_default initial_router _ H)).
Defined.

(** ** Building the rule table *)





Lemma build_entries_post_no_hit post acc vm k :
  key_hashable k = true -> keys_hashable acc ->
  Forall (fun m => forall d, m = PDict d -> entry_kept d = true ->
            key_eq (entry_key d) k = false) post ->
  build_entries post acc = Ret vm -> vm_lookup k vm = vm_lookup k acc.
Proof.
  intros Hk Hacc Hall; revert acc Hacc; induction Hall as [| m rest Hm Hrest IH];
    intros acc Hacc H.
  - injection H as <-; reflexivity.
  - destruct m; try discriminate.
    rewrite build_entries_cons in H.
    destruct (entry_kept d) eqn:Ek; simpl negb in H; cbv iota in H; [|exact (IH acc Hacc H)].
    destruct (key_hashable (entry_key d)) eqn:Ekh; [|discriminate].
    rewrite (IH _ (vm_set_keys_hashable _ _ _ Ekh Hacc) H).
    rewrite (vm_lookup_set _ _ _ _ Ekh Hk Hacc), (Hm d eq_refl Ek); reflexivity.
Qed.

(** Claim C7.  Of two entries with the same [(in_address, in_value)], the
    later one (a well-formed entry: both addresses present, key hashable)
    determines what a lookup of that key returns in the built table, when no
    entry after it has an equal key. *)
Theorem build_last_write_wins pre mid post d1 d2 vm :
  entry_key d1 = entry_key d2 ->
  entry_kept d2 = true ->
  key_hashable (entry_key d2) = true ->
  Forall (fun m => forall d, m = PDict d -> entry_kept d = true ->
            key_eq (entry_key d) (entry_key d2) = false) post ->
  build_value_map (PList (pre ++ PDict d1 :: mid ++ PDict d2 :: post)) = Ret vm ->
  vm_lookup (entry_key d2) vm = Some (entry_target d2).
Proof.
  intros _ Hkept Hh Hpost H.
  change (build_entries (pre ++ PDict d1 :: mid ++ PDict d2 :: post) [] = Ret vm) in H.
  replace (pre ++ PDict d1 :: mid ++ PDict d2 :: post)
    with ((pre ++ PDict d1 :: mid) ++ PDict d2 :: post) in H
    by (rewrite <- app_assoc; reflexivity).
  rewrite build_entries_app in H.
  destruct (build_entries (pre ++ PDict d1 :: mid) []) as [a|] eqn:Ea; [|discriminate].
  rewrite build_entries_cons, Hkept, Hh in H; simpl negb in H; cbv iota in H.
  assert (Ha : keys_hashable a)
    by exact (vm_wf_keys_hashable _ (build_entries_wf _ [] a eq_refl Ea)).
  rewrite (build_entries_post_no_hit _ _ _ _ Hh (vm_set_keys_hashable _ _ _ Hh Ha) Hpost H).
  rewrite (vm_lookup_set _ _ _ _ Hh Hh Ha), (key_eq_refl _ Hh); reflexivity.
Qed.

Lemma build_last_write_wins_witness :
  entry_key (dup_entry "/x") = entry_key (dup_entry "/y") /\
  entry_kept (dup_entry "/y") = true /\
  key_hashable (entry_key (dup_entry "/y")) = true /\
  build_value_map (PList ([] ++ PDict (dup_entry "/x") :: [] ++ PDict (dup_entry "/y") :: []))
  = Ret [((PStr "/a", PInt 1), (PStr "/y", PList [PInt 0]))] /\
  vm_lookup (entry_key (dup_entry "/y")) [((PStr "/a", PInt 1), (PStr "/y", PList [PInt 0]))]
  = Some (entry_target (dup_entry "/y")).
Proof.
  assert (H1 : entry_key (dup_entry "/x") = entry_key (dup_entry "/y")) by reflexivity.
  assert (H2 : entry_kept (dup_entry "/y") = true) by reflexivity.
  assert (H3 : key_hashable (entry_key (dup_entry "/y")) = true) by reflexivity.
  assert (H4 : build_value_map (PList ([] ++ PDict (dup_entry "/x") :: [] ++ PDict (dup_entry "/y") :: []))
               = Ret [((PStr "/a", PInt 1), (PStr "/y", PList [PInt 0]))]) by reflexivity.
  split; [exact H1|]; split; [exact H2|]; split; [exact H3|]; split; [exact H4|].
  exact (build_last_write_wins [] [] [] _ _ _ H1 H2 H3 (Forall_nil _) H4).
Defined.

(** Claim C8.  An entry (an object) whose [in_address] or [out_address] is
    missing, empty or otherwise false is skipped without raising: the result
    of construction, table or exception, is the one obtained without that
    entry, so it adds nothing any lookup could return. *)
Theorem build_skips_malformed pre post d :
  truthy (dget "in_address" d PNone) = false \/ truthy (dget "out_address" d PNone) = false ->
  build_value_map (PList (pre ++ PDict d :: post)) = build_value_map (PList (pre ++ post)).
Proof.
  intros Hbad.
  assert (Ek : entry_kept d = false)
    by (unfold entry_kept; destruct Hbad as [-> | ->]; [|rewrite andb_false_r]; reflexivity).
  change (build_entries (pre ++ PDict d :: post) [] = build_entries (pre ++ post) []).
  rewrite !build_entries_app.
  destruct (build_entries pre []); [|reflexivity].
  rewrite build_entries_cons, Ek; reflexivity.
Qed.

Lemma build_skips_malformed_witness :
  (truthy (dget "in_address" no_out_entry PNone) = false \/
   truthy (dget "out_address" no_out_entry PNone) = false) /\
  build_value_map (PList ([PDict (dup_entry "/x")] ++ PDict no_out_entry :: []))
  = build_value_map (PList ([PDict (dup_entry "/x")] ++ [])).
Proof.
  assert (H : truthy (dget "in_address" no_out_entry PNone) = false \/
              truthy (dget "out_address" no_out_entry PNone) = false) by (right; reflexivity).
  split; [exact H|].
  exact (build_skips_malformed _ _ _ H).
Defined.

(** ** The example scenario of the specification, evaluated *)

Example scenario_hit :
  route (scenario_router true) "/btn/1" [PInt 1] = Forward (PStr "/light/1") (PList [PInt 255]).
Proof. reflexivity. Qed.

Example scenario_miss_value :
  route (scenario_router true) "/btn/1" [PInt 0] = Forward (PStr "/btn/1") (PList [PInt 0]).
Proof. reflexivity. Qed.

Example scenario_miss_address :
  osc_handler (pythonosc_send true) true (scenario_router true) "/btn/2" [PInt 1]
  = ([LogRecv "/btn/2" [PInt 1]; LogSend (PStr "/btn/2") [PInt 1]],
     Some (PStr "/btn/2", [PInt 1]), None).
Proof. reflexivity. Qed.

Example scenario_drop :
  route (scenario_router false) "/btn/2" [PInt 1] = Drop (PStr "/btn/2", PInt 1).
Proof. reflexivity. Qed.

(** ** Server lifecycle *)

Lemma app_step_session_ok py_int py_strip host_ip s op :
  session_ok s -> session_ok (app_step py_int py_strip host_ip s op).
Proof.
  intros Hok; pose proof Hok as (Hr & Ht & Hc & Hi & Hs).
  destruct op as [lp tip tp c b |]; simpl.
  - unfold on_start.
    destruct (running s) eqn:Er; [exact Hok|].
    assert (Hnone : osc_server_obj s = None)
      by (destruct (osc_server_obj s); [|reflexivity];
          assert (Hf : false = true) by (apply Hr; discriminate); discriminate Hf).
    destruct (py_int lp) as [l|]; [|exact Hok].
    destruct (py_int tp) as [t|]; [|exact Hok].
    unfold start_osc_server; destruct c; simpl; [|exact Hok].
    unfold session_ok; destruct b; simpl; rewrite ?Hnone in *; rewrite ?Er;
      intuition congruence.
  - unfold on_stop.
    destruct (running s) eqn:Er; simpl; [|exact Hok].
    unfold stop_osc_server, session_ok; destruct (osc_server_obj s); simpl;
      intuition congruence.
Qed.


Lemma initial_session_ok : session_ok initial_session.
Proof. unfold session_ok; simpl; intuition congruence. Qed.

Lemma run_ops_from_ok py_int py_strip host_ip ops s :
  session_ok s -> session_ok (run_ops py_int py_strip host_ip s ops).
Proof.
  unfold run_ops; revert s; induction ops as [| op ops IH]; intros s Hs; simpl; [exact Hs|].
  apply IH, app_step_session_ok, Hs.
Qed.

(** Whatever sequence of Start and Stop presses the window receives, and
    whatever the socket calls do, [running] is set exactly when a server
    object exists, a server thread exists exactly when a server object does,
    a server never exists without a client, and the Start button and entries
    are enabled exactly when not running while the Stop button is enabled
    exactly when running. *)
Theorem run_ops_session_ok py_int py_strip host_ip ops :
  session_ok (run_ops py_int py_strip host_ip initial_session ops).
Proof. apply run_ops_from_ok, initial_session_ok. Qed.

(** Whenever a server is listening, and so [osc_handler] can run, the
    global [osc_client] is set: [send_osc] is then never in its "client not
    initialized" branch. *)
Theorem listening_server_has_client py_int py_strip host_ip ops :
  osc_server_obj (run_ops py_int py_strip host_ip initial_session ops) <> None ->
  exists c, osc_client (run_ops py_int py_strip host_ip initial_session ops) = Some c.
Proof.
  intros H.
  destruct (run_ops_session_ok py_int py_strip host_ip ops) as (_ & _ & Hc & _).
  destruct (osc_client (run_ops py_int py_strip host_ip initial_session ops)) as [c|];
    [exists c; reflexivity | exfalso; exact (Hc H eq_refl)].
Qed.

Lemma listening_server_has_client_witness :
  osc_server_obj (run_ops example_int (fun x => x) "10.0.0.2" initial_session
                    [PressStart "7000" "127.0.0.1" "9000" true true]) <> None /\
  exists c, osc_client (run_ops example_int (fun x => x) "10.0.0.2" initial_session
                          [PressStart "7000" "127.0.0.1" "9000" true true]) = Some c.
Proof.
  assert (H : osc_server_obj (run_ops example_int (fun x => x) "10.0.0.2" initial_session
                    [PressStart "7000" "127.0.0.1" "9000" true true]) <> None) by discriminate.
  split; [exact H|].
  exact (listening_server_has_client _ _ _ _ H).
Defined.

(** A successful Start followed by Stop: Start creates the client and the
    server on the host address, logs the two start lines and "OSC Mapper
    started."; Stop logs "Stopping..." and "stopped", clears the server and
    its thread and restores the controls, but keeps the client. *)
Theorem start_then_stop py_int py_strip host_ip s lp tip tp l t s1 ev1 s2 ev2 :
  running s = false -> py_int lp = Some l -> py_int tp = Some t ->
  on_start py_int py_strip host_ip s lp tip tp true true = (s1, ev1) ->
  on_stop s1 = (s2, ev2) ->
  running s1 = true /\ osc_server_obj s1 = Some (host_ip, l) /\
  osc_client s1 = Some (py_strip tip, t) /\
  ev1 = [EvServerStarting host_ip l; EvForwarding (py_strip tip) t; EvMapperStarted] /\
  running s2 = false /\ osc_server_obj s2 = None /\ server_thread s2 = false /\
  osc_client s2 = Some (py_strip tip, t) /\ inputs_enabled s2 = true /\
  stop_button_enabled s2 = false /\ status_running s2 = None /\
  ev2 = [EvStopping; EvStopped].
Proof.
  intros Hr Hl Ht H1 H2.
  unfold on_start in H1; rewrite Hr, Hl, Ht in H1; simpl in H1.
  injection H1 as <- <-; simpl in H2; injection H2 as <- <-; simpl.
  repeat split; reflexivity.
Qed.

Lemma start_then_stop_witness :
  exists s1 ev1 s2 ev2,
  on_start example_int (fun x => x) "10.0.0.2" initial_session "7000" "127.0.0.1" "9000"
    true true = (s1, ev1) /\
  on_stop s1 = (s2, ev2) /\
  osc_client s2 = Some ("127.0.0.1", 9000%Z) /\ osc_server_obj s2 = None.
Proof.
  eexists; eexists; eexists; eexists.
  split; [reflexivity|]; split; [reflexivity|].
  pose proof (start_then_stop example_int (fun x => x) "10.0.0.2" initial_session
                "7000" "127.0.0.1" "9000" 7000%Z 9000%Z _ _ _ _ eq_refl eq_refl eq_refl
                eq_refl eq_refl) as H.
  destruct H as (_ & _ & _ & _ & _ & Hs & _ & Hc & _).
  split; [exact Hc | exact Hs].
Defined.

(** A Start whose socket calls fail leaves the window stopped and reports
    "Failed to start OSC server".  When the UDP client was created but the
    listening socket could not be bound, the global [osc_client] has already
    been replaced by a client for the new target. *)
Theorem start_failure py_int py_strip host_ip s lp tip tp l t :
  running s = false -> py_int lp = Some l -> py_int tp = Some t ->
  on_start py_int py_strip host_ip s lp tip tp true false
  = (set_client s (Some (py_strip tip, t)), [EvErrorStartFailed]) /\
  (forall b, on_start py_int py_strip host_ip s lp tip tp false b = (s, [EvErrorStartFailed])).
Proof.
  intros Hr Hl Ht; unfold on_start; rewrite Hr, Hl, Ht; split; [reflexivity|].
  intros b; reflexivity.
Qed.

Lemma start_failure_witness :
  on_start example_int (fun x => x) "10.0.0.2" initial_session "7000" "127.0.0.1" "9000"
    true false
  = (set_client initial_session (Some ("127.0.0.1", 9000%Z)), [EvErrorStartFailed]).
Proof.
  exact (proj1 (start_failure example_int (fun x => x) "10.0.0.2" initial_session
                  "7000" "127.0.0.1" "9000" 7000%Z 9000%Z eq_refl eq_refl eq_refl)).
Defined.

(** A Start with a port text that [int()] rejects only shows "Ports must be
    integers.": no client or server is created and the state is unchanged. *)
Theorem start_bad_port py_int py_strip host_ip s lp tip tp c b :
  running s = false -> (py_int lp = None \/ py_int tp = None) ->
  on_start py_int py_strip host_ip s lp tip tp c b = (s, [EvErrorPorts]).
Proof.
  intros Hr Hp; unfold on_start; rewrite Hr.
  destruct Hp as [Hp | Hp]; rewrite Hp; [reflexivity|].
  destruct (py_int lp); reflexivity.
Qed.

Lemma start_bad_port_witness :
  example_int "70a0" = None /\
  on_start example_int (fun x => x) "10.0.0.2" initial_session "70a0" "127.0.0.1" "9000"
    true true = (initial_session, [EvErrorPorts]).
Proof.
  assert (H : example_int "70a0" = None) by reflexivity.
  split; [exact H|].
  exact (start_bad_port example_int (fun x => x) "10.0.0.2" initial_session
           "70a0" "127.0.0.1" "9000" true true eq_refl (or_introl H)).
Defined.

(** Closing the window, whatever happened before, leaves no server object
    and no server thread. *)
Theorem close_leaves_no_server py_int py_strip host_ip ops :
  osc_server_obj (fst (on_close (run_ops py_int py_strip host_ip initial_session ops))) = None /\
  server_thread (fst (on_close (run_ops py_int py_strip host_ip initial_session ops))) = false.
Proof.
  destruct (run_ops_session_ok py_int py_strip host_ip ops) as (Hr & Ht & _).
  set (s := run_ops py_int py_strip host_ip initial_session ops) in *.
  unfold on_close.
  destruct (running s) eqn:Er.
  - unfold stop_osc_server; destruct (osc_server_obj s); split; reflexivity.
  - simpl.
    destruct (osc_server_obj s) eqn:Es.
    + exfalso; assert (Hf : false = true) by (apply Hr; discriminate); discriminate Hf.
    + split; [reflexivity|].
      destruct (server_thread s); [|reflexivity].
      exfalso; apply (proj1 Ht eq_refl); reflexivity.
Qed.

(** ** More on dispatch *)

(** On a mapped hit the handler logs the receive line and the send line and
    calls [send_message] with the rule's output address and its [out_args]
    as [send_osc] shapes them: [null] becomes no argument, a list is sent as
    it is, any other value becomes a one-element argument list.  The message
    goes out when [send_message] returns; when it raises, the exception
    escapes the handler and nothing is sent. *)
Theorem handler_mapped_send send_message st A V a o args :
  vm_wf (VALUE_MAP st) = true ->
  In ((PStr A, V), (a, o)) (VALUE_MAP st) ->
  py_eq V (first_arg args) = true ->
  let out := match o with PNone => [] | PList l => l | x => [x] end in
  osc_handler send_message true st A args
  = ([LogRecv A args; LogSend a out],
     match send_message a out with None => Some (a, out) | Some _ => None end,
     send_message a out).
Proof.
  intros Hwf Hin Heq out; unfold osc_handler.
  rewrite (route_hit_entry st A V (a, o) args Hwf Hin Heq); unfold send_osc; simpl.
  fold out; destruct (send_message a out); reflexivity.
Qed.

Lemma handler_mapped_send_witness :
  vm_wf (VALUE_MAP (loaded (single_rule_config false "/a" (PInt 1) "/b" (PInt 255)))) = true /\
  In ((PStr "/a", PInt 1), (PStr "/b", PInt 255))
     (VALUE_MAP (loaded (single_rule_config false "/a" (PInt 1) "/b" (PInt 255)))) /\
  py_eq (PInt 1) (first_arg [PInt 1]) = true /\
  osc_handler (pythonosc_send true) true
    (loaded (single_rule_config false "/a" (PInt 1) "/b" (PInt 255))) "/a" [PInt 1]
  = ([LogRecv "/a" [PInt 1]; LogSend (PStr "/b") [PInt 255]], Some (PStr "/b", [PInt 255]), None).
Proof.
  assert (Hwf : vm_wf (VALUE_MAP (loaded (single_rule_config false "/a" (PInt 1) "/b" (PInt 255))))
                = true) by reflexivity.
  assert (Hin : In ((PStr "/a", PInt 1), (PStr "/b", PInt 255))
     (VALUE_MAP (loaded (single_rule_config false "/a" (PInt 1) "/b" (PInt 255)))))
    by (vm_compute; left; reflexivity).
  assert (Heq : py_eq (PInt 1) (first_arg [PInt 1]) = true) by reflexivity.
  split; [exact Hwf|]; split; [exact Hin|]; split; [exact Heq|].
  exact (handler_mapped_send (pythonosc_send true) _ _ _ _ _ _ Hwf Hin Heq).
Defined.




(** ** More on [load_config] *)

(** [bool(data.get("forward_unmapped", False))]: any non-empty string turns
    forwarding of unmapped messages on, the string ["false"] included. *)
Theorem load_config_flag_string st d s :
  dget_opt "forward_unmapped" d = Some (PStr s) -> s <> "" ->
  FORWARD_UNMAPPED (fst (fst (load_config st (ConfigDecoded (PDict d))))) = true.
Proof.
  intros Hf Hs; unfold load_config; cbn -[dget build_value_map].
  assert (Ht : truthy (dget "forward_unmapped" d (PBool false)) = true).
  { unfold dget; rewrite Hf; simpl.
    destruct (String.eqb s "") eqn:E; [apply String.eqb_eq in E; contradiction | reflexivity]. }
  destruct (build_value_map (dget "mappings" d (PList []))); simpl; exact Ht.
Qed.

Lemma load_config_flag_string_witness :
  dget_opt "forward_unmapped" [("forward_unmapped", PStr "false")] = Some (PStr "false") /\
  "false" <> "" /\
  FORWARD_UNMAPPED (fst (fst (load_config initial_router
                                (ConfigDecoded (PDict [("forward_unmapped", PStr "false")]))))) = true.
Proof.
  assert (H1 : dget_opt "forward_unmapped" [("forward_unmapped", PStr "false")]
               = Some (PStr "false")) by reflexivity.
  assert (H2 : "false" <> "") by discriminate.
  split; [exact H1|]; split; [exact H2|].
  exact (load_config_flag_string initial_router _ _ H1 H2).
Defined.

(** When building the map raises, the exception escapes [load_config] after
    [FORWARD_UNMAPPED] has already been overwritten: the new flag sits beside
    the old [VALUE_MAP]. *)
Theorem load_config_partial_update st d e :
  build_value_map (dget "mappings" d (PList [])) = Raise e ->
  load_config st (ConfigDecoded (PDict d))
  = ({| VALUE_MAP := VALUE_MAP st;
        FORWARD_UNMAPPED := truthy (dget "forward_unmapped" d (PBool false)) |},
     [LogLoadedFrom], Some e).
Proof.
  intros H; unfold load_config; cbn -[dget build_value_map]; rewrite H; reflexivity.
Qed.

Lemma load_config_partial_update_witness :
  build_value_map (dget "mappings" [("forward_unmapped", PBool false); ("mappings", PList [PInt 3])]
                     (PList [])) = Raise AttributeError /\
  load_config (scenario_router true)
    (ConfigDecoded (PDict [("forward_unmapped", PBool false); ("mappings", PList [PInt 3])]))
  = ({| VALUE_MAP := VALUE_MAP (scenario_router true); FORWARD_UNMAPPED := false |},
     [LogLoadedFrom], Some AttributeError).
Proof.
  assert (H : build_value_map (dget "mappings" [("forward_unmapped", PBool false);
                                                 ("mappings", PList [PInt 3])] (PList []))
              = Raise AttributeError) by reflexivity.
  split; [exact H|].
  exact (load_config_partial_update _ _ _ H).
Defined.

(** A decoded configuration that is not an object (an array, a number, a
    string, [null]) makes [data.get] raise [AttributeError]; both globals are
    left as they were. *)
Theorem load_config_not_object st data :
  (forall d, data <> PDict d) ->
  load_config st (ConfigDecoded data) = (st, [LogLoadedFrom], Some AttributeError).
Proof.
  intros H; unfold load_config; destruct data; try reflexivity.
  exfalso; exact (H _ eq_refl).
Qed.

Lemma load_config_not_object_witness :
  (forall d, PList [] <> PDict d) /\
  load_config initial_router (ConfigDecoded (PList []))
  = (initial_router, [LogLoadedFrom], Some AttributeError).
Proof.
  assert (H : forall d, PList [] <> PDict d) by discriminate.
  split; [exact H|]; exact (load_config_not_object _ _ H).
Defined.

(** A ["mappings"] value that is not a list never yields a rule: an empty
    string or an empty object gives an empty table, any other value makes
    construction raise. *)
Theorem mappings_not_list x :
  (forall l, x <> PList l) ->
  (forall vm, build_value_map x = Ret vm -> vm = []) /\
  (build_value_map x = Ret [] <-> x = PStr "" \/ x = PDict []).
Proof.
  intros Hx; destruct x as [| b | z | f | s | l | d].
  all: try (split; [intros vm H; discriminate H | split; [discriminate | intros [H | H]; discriminate H]]).
  - destruct s as [| c s]; simpl.
    + split; [intros vm H; injection H as <-; reflexivity | split; intros _; [left|]; reflexivity].
    + split; [intros vm H; discriminate H | split; [discriminate | intros [H | H]; discriminate H]].
  - exfalso; exact (Hx l eq_refl).
  - destruct d as [| kv d]; simpl.
    + split; [intros vm H; injection H as <-; reflexivity | split; intros _; [right|]; reflexivity].
    + split; [intros vm H; discriminate H | split; [discriminate | intros [H | H]; discriminate H]].
Qed.

Lemma mappings_not_list_witness :
  (forall l, PNone <> PList l) /\ build_value_map PNone = Raise TypeError /\
  ~ (PNone = PStr "" \/ PNone = PDict []) /\ build_value_map PNone <> Ret [].
Proof.
  assert (Hx : forall l, PNone <> PList l) by discriminate.
  assert (Hn : ~ (PNone = PStr "" \/ PNone = PDict [])) by (intros [H | H]; discriminate H).
  split; [exact Hx|]; split; [reflexivity|]; split; [exact Hn|].
  intros H; apply Hn, (proj2 (mappings_not_list PNone Hx)), H.
Defined.

Lemma vm_set_addresses_ok k t m :
  entry_addresses_ok (k, t) -> Forall entry_addresses_ok m ->
  Forall entry_addresses_ok (vm_set k t m).
Proof.
  intros Hkt Hm; induction Hm as [| [k' t'] r Hk' Hr IH]; simpl.
  - constructor; [exact Hkt | constructor].
  - destruct (key_eq k' k); constructor; try assumption.
    split; [exact (proj1 Hk') | exact (proj2 Hkt)].
Qed.

Lemma build_entries_addresses_ok items acc vm :
  Forall entry_addresses_ok acc -> build_entries items acc = Ret vm ->
  Forall entry_addresses_ok vm.
Proof.
  revert acc; induction items as [| m rest IH]; intros acc Hacc H.
  - injection H as <-; exact Hacc.
  - destruct m; try discriminate.
    rewrite build_entries_cons in H.
    destruct (entry_kept d) eqn:Ek; simpl negb in H; cbv iota in H; [|exact (IH acc Hacc H)].
    destruct (key_hashable (entry_key d)); [|discriminate].
    assert (Hd : entry_addresses_ok (entry_key d, entry_target d)) by exact (andb_prop _ _ Ek).
    apply (IH _ (vm_set_addresses_ok _ _ _ Hd Hacc) H).
Qed.

(** Every entry of a table built from the configuration has a true (for
    strings: non-empty) [in_address] and [out_address]: a mapped hit never
    sends to an empty address. *)
Theorem build_value_map_addresses x vm :
  build_value_map x = Ret vm -> Forall entry_addresses_ok vm.
Proof.
  unfold build_value_map; destruct (py_iter x); [|discriminate].
  apply build_entries_addresses_ok; constructor.
Qed.

Lemma build_value_map_addresses_witness :
  build_value_map (PList [mapping_entry "/a" (PInt 1) (PStr "/b") (PList [])])
  = Ret [((PStr "/a", PInt 1), (PStr "/b", PList []))] /\
  Forall entry_addresses_ok [((PStr "/a", PInt 1), (PStr "/b", PList []))].
Proof.
  assert (H : build_value_map (PList [mapping_entry "/a" (PInt 1) (PStr "/b") (PList [])])
              = Ret [((PStr "/a", PInt 1), (PStr "/b", PList []))]) by reflexivity.
  split; [exact H|]; exact (build_value_map_addresses _ _ H).
Defined.

Lemma vm_set_length k t m : (length (vm_set k t m) <= S (length m))%nat.
Proof.
  induction m as [| [k' t'] r IH]; simpl; [apply le_n|].
  destruct (key_eq k' k); simpl; [apply le_S, le_n | apply le_n_S, IH].
Qed.

Lemma build_entries_length items acc vm :
  build_entries items acc = Ret vm -> (length vm <= length acc + length items)%nat.
Proof.
  revert acc; induction items as [| m rest IH]; intros acc H.
  - injection H as <-; rewrite Nat.add_0_r; apply le_n.
  - destruct m; try discriminate.
    rewrite build_entries_cons in H; simpl length.
    destruct (entry_kept d); simpl negb in H; cbv iota in H.
    + destruct (key_hashable (entry_key d)); [|discriminate].
      pose proof (IH _ H) as Hl; pose proof (vm_set_length (entry_key d) (entry_target d) acc).
      rewrite Nat.add_succ_r; eapply Nat.le_trans; [exact Hl|].
      rewrite <- Nat.add_succ_l; apply Nat.add_le_mono_r; exact H0.
    + rewrite Nat.add_succ_r; apply le_S, (IH _ H).
Qed.

(** The number of mappings [load_config] reports never exceeds the number
    of entries in ["mappings"]. *)
Theorem build_value_map_count items vm :
  build_value_map (PList items) = Ret vm -> (length vm <= length items)%nat.
Proof. intros H; exact (build_entries_length items [] vm H). Qed.

Lemma build_value_map_count_witness :
  build_value_map (PList [PDict (dup_entry "/x"); PDict (dup_entry "/y")])
  = Ret [((PStr "/a", PInt 1), (PStr "/y", PList [PInt 0]))] /\
  (length [((PStr "/a", PInt 1), (PStr "/y", PList [PInt 0]))] <= 2)%nat.
Proof.
  assert (H : build_value_map (PList [PDict (dup_entry "/x"); PDict (dup_entry "/y")])
              = Ret [((PStr "/a", PInt 1), (PStr "/y", PList [PInt 0]))]) by reflexivity.
  split; [exact H|]; exact (build_value_map_count _ _ H).
Defined.
